(** * The MMS lifecycle handler of commhistory-daemon

    A shallow embedding of [src/mmshandler.cpp]: the [MmsHandler] methods are
    written in a state monad over a [World] made of the handler's members, the
    history store, the message part files, the policy observables and the
    trace of calls made to the collaborators.  Logging statements are left
    out; everything else follows the source statement by statement. *)

From Stdlib Require Import ZArith List String Ascii Bool Lia DecimalString.
Import ListNotations.

Open Scope Z_scope.
Open Scope list_scope.

(** ** Qt values *)

(** [QString] is a Rocq [string] of 8-bit characters, on which
    [QString::toLatin1] is the identity. *)
Definition isEmpty (s : string) : bool :=
  match s with EmptyString => true | String _ _ => false end.

(** The character ['\n']. *)
Definition newline : string := String "010" EmptyString.

(** [QString::startsWith]. *)
Definition startsWith (s pre : string) : bool := String.prefix pre s.

(** [QString::number(int)]: the decimal rendering. *)
Definition QString_number (n : Z) : string :=
  NilZero.string_of_int (Z.to_int n).

(** [mmspart.h]: the parts as they travel over D-Bus. *)
Module MmsPart.
Record t := Build { fileName : string; contentType : string; contentId : string }.
End MmsPart.

Definition MmsPartList := list MmsPart.t.

Inductive QVariant :=
| QInvalid
| QBool (b : bool)
| QInt (n : Z)
| QUInt (n : Z)
| QStr (s : string)
| QBytes (s : string)
| QStrList (l : list string)
| QParts (l : MmsPartList).

Definition QVariant_isValid (v : QVariant) : bool :=
  match v with QInvalid => false | _ => true end.

Definition toLowerAscii (c : ascii) : ascii :=
  let n := N_of_ascii c in
  if ((65 <=? n) && (n <=? 90))%N then ascii_of_N (n + 32) else c.

Fixpoint toLower (s : string) : string :=
  match s with
  | EmptyString => EmptyString
  | String c r => String (toLowerAscii c) (toLower r)
  end.

(** [QVariant::toBool]: non-zero numbers, and texts whose lower-case content
    is neither empty, "0" nor "false". *)
Definition QVariant_toBool (v : QVariant) : bool :=
  match v with
  | QBool b => b
  | QInt n | QUInt n => negb (n =? 0)
  | QStr s | QBytes s =>
      let l := toLower s in
      negb (isEmpty l || String.eqb l "0" || String.eqb l "false")
  | _ => false
  end.

(** ** The history store's records (CommHistory) *)

Module MessagePart.
Record t := Build { contentId : string; contentType : string; path : string }.
End MessagePart.

Module Group.
Inductive ChatType := ChatTypeP2P | ChatTypeUnnamed | ChatTypeRoom.
End Group.

Module Event.

Inductive EventType :=
| UnknownType | IMEvent | SMSEvent | CallEvent | VoicemailEvent
| StatusMessageEvent | MMSEvent.

Inductive EventDirection := UnknownDirection | Inbound | Outbound.

Inductive EventStatus :=
| UnknownStatus | SendingStatus | SentStatus | DeliveredStatus
| TemporarilyFailedStatus | PermanentlyFailedStatus
| ManualNotificationStatus | WaitingStatus | DownloadingStatus
| ReceivedStatus.

Inductive EventReadStatus :=
| ReadStatusUnknown | ReadStatusRead | ReadStatusDeleted.

(** The fields of [CommHistory::Event] the handler reads or writes; times
    are seconds since the epoch. *)
Record t := Build {
  id : Z;
  type : EventType;
  startTime : Z;
  endTime : Z;
  direction : EventDirection;
  localUid : string;
  remoteUid : string;
  subject : string;
  status : EventStatus;
  isRead : bool;
  readStatus : EventReadStatus;
  mmsId : string;
  toList : list string;
  ccList : list string;
  bccList : list string;
  reportRead : bool;
  messageParts : list MessagePart.t;
  freeText : string;
  groupId : Z;
  extraProperties : list (string * QVariant)
}.

(** A default-constructed [Event]: no row id yet. *)
Definition default : t :=
  Build (-1) UnknownType 0 0 UnknownDirection EmptyString EmptyString
        EmptyString UnknownStatus false ReadStatusUnknown EmptyString
        [] [] [] false [] EmptyString (-1) [].

(** [Event::isValid]: the event has a row id. *)
Definition isValid (e : t) : bool := negb (id e =? -1).

Definition setId (x : Z) (e : t) : t :=
  Build x (type e) (startTime e) (endTime e) (direction e) (localUid e)
       (remoteUid e) (subject e) (status e) (isRead e) (readStatus e)
       (mmsId e) (toList e) (ccList e) (bccList e) (reportRead e)
       (messageParts e) (freeText e) (groupId e) (extraProperties e).

Definition setType (x : EventType) (e : t) : t :=
  Build (id e) x (startTime e) (endTime e) (direction e) (localUid e)
       (remoteUid e) (subject e) (status e) (isRead e) (readStatus e)
       (mmsId e) (toList e) (ccList e) (bccList e) (reportRead e)
       (messageParts e) (freeText e) (groupId e) (extraProperties e).

Definition setStartTime (x : Z) (e : t) : t :=
  Build (id e) (type e) x (endTime e) (direction e) (localUid e)
       (remoteUid e) (subject e) (status e) (isRead e) (readStatus e)
       (mmsId e) (toList e) (ccList e) (bccList e) (reportRead e)
       (messageParts e) (freeText e) (groupId e) (extraProperties e).

Definition setEndTime (x : Z) (e : t) : t :=
  Build (id e) (type e) (startTime e) x (direction e) (localUid e)
       (remoteUid e) (subject e) (status e) (isRead e) (readStatus e)
       (mmsId e) (toList e) (ccList e) (bccList e) (reportRead e)
       (messageParts e) (freeText e) (groupId e) (extraProperties e).

Definition setDirection (x : EventDirection) (e : t) : t :=
  Build (id e) (type e) (startTime e) (endTime e) x (localUid e)
       (remoteUid e) (subject e) (status e) (isRead e) (readStatus e)
       (mmsId e) (toList e) (ccList e) (bccList e) (reportRead e)
       (messageParts e) (freeText e) (groupId e) (extraProperties e).

Definition setLocalUid (x : string) (e : t) : t :=
  Build (id e) (type e) (startTime e) (endTime e) (direction e) x
       (remoteUid e) (subject e) (status e) (isRead e) (readStatus e)
       (mmsId e) (toList e) (ccList e) (bccList e) (reportRead e)
       (messageParts e) (freeText e) (groupId e) (extraProperties e).

Definition setRemoteUid (x : string) (e : t) : t :=
  Build (id e) (type e) (startTime e) (endTime e) (direction e) (localUid e)
       x (subject e) (status e) (isRead e) (readStatus e) (mmsId e)
       (toList e) (ccList e) (bccList e) (reportRead e) (messageParts e)
       (freeText e) (groupId e) (extraProperties e).

Definition setSubject (x : string) (e : t) : t :=
  Build (id e) (type e) (startTime e) (endTime e) (direction e) (localUid e)
       (remoteUid e) x (status e) (isRead e) (readStatus e) (mmsId e)
       (toList e) (ccList e) (bccList e) (reportRead e) (messageParts e)
       (freeText e) (groupId e) (extraProperties e).

Definition setStatus (x : EventStatus) (e : t) : t :=
  Build (id e) (type e) (startTime e) (endTime e) (direction e) (localUid e)
       (remoteUid e) (subject e) x (isRead e) (readStatus e) (mmsId e)
       (toList e) (ccList e) (bccList e) (reportRead e) (messageParts e)
       (freeText e) (groupId e) (extraProperties e).

Definition setIsRead (x : bool) (e : t) : t :=
  Build (id e) (type e) (startTime e) (endTime e) (direction e) (localUid e)
       (remoteUid e) (subject e) (status e) x (readStatus e) (mmsId e)
       (toList e) (ccList e) (bccList e) (reportRead e) (messageParts e)
       (freeText e) (groupId e) (extraProperties e).

Definition setReadStatus (x : EventReadStatus) (e : t) : t :=
  Build (id e) (type e) (startTime e) (endTime e) (direction e) (localUid e)
       (remoteUid e) (subject e) (status e) (isRead e) x (mmsId e)
       (toList e) (ccList e) (bccList e) (reportRead e) (messageParts e)
       (freeText e) (groupId e) (extraProperties e).

Definition setMmsId (x : string) (e : t) : t :=
  Build (id e) (type e) (startTime e) (endTime e) (direction e) (localUid e)
       (remoteUid e) (subject e) (status e) (isRead e) (readStatus e) x
       (toList e) (ccList e) (bccList e) (reportRead e) (messageParts e)
       (freeText e) (groupId e) (extraProperties e).

Definition setToList (x : list string) (e : t) : t :=
  Build (id e) (type e) (startTime e) (endTime e) (direction e) (localUid e)
       (remoteUid e) (subject e) (status e) (isRead e) (readStatus e)
       (mmsId e) x (ccList e) (bccList e) (reportRead e) (messageParts e)
       (freeText e) (groupId e) (extraProperties e).

Definition setCcList (x : list string) (e : t) : t :=
  Build (id e) (type e) (startTime e) (endTime e) (direction e) (localUid e)
       (remoteUid e) (subject e) (status e) (isRead e) (readStatus e)
       (mmsId e) (toList e) x (bccList e) (reportRead e) (messageParts e)
       (freeText e) (groupId e) (extraProperties e).

Definition setBccList (x : list string) (e : t) : t :=
  Build (id e) (type e) (startTime e) (endTime e) (direction e) (localUid e)
       (remoteUid e) (subject e) (status e) (isRead e) (readStatus e)
       (mmsId e) (toList e) (ccList e) x (reportRead e) (messageParts e)
       (freeText e) (groupId e) (extraProperties e).


Definition setMessageParts (x : list MessagePart.t) (e : t) : t :=
  Build (id e) (type e) (startTime e) (endTime e) (direction e) (localUid e)
       (remoteUid e) (subject e) (status e) (isRead e) (readStatus e)
       (mmsId e) (toList e) (ccList e) (bccList e) (reportRead e) x
       (freeText e) (groupId e) (extraProperties e).

Definition setFreeText (x : string) (e : t) : t :=
  Build (id e) (type e) (startTime e) (endTime e) (direction e) (localUid e)
       (remoteUid e) (subject e) (status e) (isRead e) (readStatus e)
       (mmsId e) (toList e) (ccList e) (bccList e) (reportRead e)
       (messageParts e) x (groupId e) (extraProperties e).

Definition setGroupId (x : Z) (e : t) : t :=
  Build (id e) (type e) (startTime e) (endTime e) (direction e) (localUid e)
       (remoteUid e) (subject e) (status e) (isRead e) (readStatus e)
       (mmsId e) (toList e) (ccList e) (bccList e) (reportRead e)
       (messageParts e) (freeText e) x (extraProperties e).

(** [Event::setExtraProperty]: an invalid value removes the key. *)
Definition setExtraProperty (key : string) (v : QVariant) (e : t) : t :=
  let others :=
    filter (fun kv => negb (String.eqb (fst kv) key)) (extraProperties e) in
  Build (id e) (type e) (startTime e) (endTime e) (direction e) (localUid e)
       (remoteUid e) (subject e) (status e) (isRead e) (readStatus e)
       (mmsId e) (toList e) (ccList e) (bccList e) (reportRead e)
       (messageParts e) (freeText e) (groupId e)
       (if QVariant_isValid v then (key, v) :: others else others).

Definition status_eq_dec (a b : EventStatus) : {a = b} + {a <> b}.
Proof. decide equality. Defined.

Definition type_eq_dec (a b : EventType) : {a = b} + {a <> b}.
Proof. decide equality. Defined.

Definition direction_eq_dec (a b : EventDirection) : {a = b} + {a <> b}.
Proof. decide equality. Defined.

(** Modelled from the spec: the test [status >= TemporarilyFailedStatus] of
    [sendMessage] compares numeric values that CommHistory's header
    declares; the spec has "failure statuses are numerically greater than
    in-progress statuses".  Where the test is made the status is that of a
    default event, [SendingStatus] or one of the two failure statuses, and
    among these it singles out the failure statuses. *)
Definition atLeastTemporarilyFailed (s : EventStatus) : bool :=
  match s with
  | TemporarilyFailedStatus | PermanentlyFailedStatus => true
  | _ => false
  end.

End Event.

(** ** What the platform provides

    Library functions of Qt and CommHistory, the account constant of
    [constants.h] and the path helper of the handler's base class are
    parameters of the development. *)
Class Platform := {
  RING_ACCOUNT_PATH : string;
  (** [QString::toInt(bool *ok)]: the value (0 on failure) and the flag. *)
  QString_toInt : string -> Z * bool;
  (** [QString::trimmed]. *)
  trimmed : string -> string;
  (** [QByteArray::toBase64]. *)
  toBase64 : string -> string;
  (** [CommHistory::normalizePhoneNumber]. *)
  normalizePhoneNumber : string -> bool -> string;
  (** [MessageHandlerBase::messagePartPath]: the destination path derived
      from the row id and the content id. *)
  messagePartPath : Z -> string -> string
}.

Definition toInt `{Platform} (s : string) : Z := fst (QString_toInt s).

(** [QVariant::toInt(bool *ok)]. *)
Definition QVariant_toInt `{Platform} (v : QVariant) : Z * bool :=
  match v with
  | QBool b => (if b then 1 else 0, true)
  | QInt n | QUInt n => (n, true)
  | QStr s | QBytes s => QString_toInt s
  | _ => (0, false)
  end.

(** [QVariant::toString]. *)
Definition QVariant_toString (v : QVariant) : string :=
  match v with
  | QStr s | QBytes s => s
  | QBool b => if b then "true" else "false"
  | QInt n | QUInt n => QString_number n
  | _ => EmptyString
  end.

(** ** D-Bus messages and pending calls *)

Module QDBusMessage.
Record t := Build {
  service : string;
  path : string;
  interface : string;
  method : string;
  arguments : list QVariant
}.
Definition createMethodCall (service path interface method : string) : t :=
  Build service path interface method [].
Definition setArguments (args : list QVariant) (m : t) : t :=
  Build (service m) (path m) (interface m) (method m) args.
End QDBusMessage.

Inductive QDBusPendingReply :=
| ReplyError (error : string)
| ReplyValue (value : string).

(** The watcher handed to [sendMessageFinished]: its dynamic property
    "mms-event-id" and the reply it carries. *)
Module QDBusPendingCallWatcher.
Record t := Build { mms_event_id : QVariant; reply : QDBusPendingReply }.
End QDBusPendingCallWatcher.

(** [MGConfItem]: a handle on one configuration key. *)
Record MGConfItem := newMGConfItem { key : string }.

(** ** The world the handler runs in *)

(** The calls the handler makes to its collaborators. *)
Inductive Call :=
| GetEventById (id : Z)
| GetEventByTokens (token mmsId : string) (groupId : Z)
| AddEvent (e : Event.t)
| ModifyEvent (e : Event.t)
| MoveEvent (e : Event.t) (groupId : Z)
| SetGroupForEvent (e : Event.t)
| ShowNotification (e : Event.t) (remoteUid : string) (chatType : Group.ChatType)
| Link (src dst : string)
| FileCopy (src dst : string)
| FileRemove (path : string)
| AsyncCall (msg : QDBusMessage.t)
| NewWatcher (mms_event_id : QVariant).

(** The members of [MmsHandler]; the three context properties are handles
    on observables that live outside. *)
Record MmsHandler := Build_MmsHandler {
  m_activeEvents : list Z;
  m_sendMessageFlags : option MGConfItem;
  m_automaticDownload : option MGConfItem
}.

Record Store := Build_Store { rows : list Event.t; nextId : Z }.

(** What the handler only reads: the observables, the clock, the group
    manager's answer and which collaborator calls currently fail. *)
Record Outside := Build_Outside {
  contextProperty : string -> QVariant;
  gconf : string -> QVariant;
  askRoaming : QVariant;
  currentDateTime : Z;
  groupFor : string -> string -> Z;
  refuse : Call -> bool
}.

Record World := Build_World {
  self : MmsHandler;
  db : Store;
  files : list (string * string);
  trace : list Call;
  outside : Outside
}.

Definition withSelf (h : MmsHandler) (w : World) : World :=
  Build_World h (db w) (files w) (trace w) (outside w).
Definition withDb (s : Store) (w : World) : World :=
  Build_World (self w) s (files w) (trace w) (outside w).
Definition withFiles (fs : list (string * string)) (w : World) : World :=
  Build_World (self w) (db w) fs (trace w) (outside w).
Definition withTrace (t : list Call) (w : World) : World :=
  Build_World (self w) (db w) (files w) t (outside w).
Definition withOutside (o : Outside) (w : World) : World :=
  Build_World (self w) (db w) (files w) (trace w) o.

(** ** The state monad *)

Definition M (A : Type) : Type := World -> A * World.

Definition ret {A} (a : A) : M A := fun w => (a, w).

Definition bind {A B} (m : M A) (k : A -> M B) : M B :=
  fun w => let (a, w') := m w in k a w'.

Declare Scope monad_scope.
Delimit Scope monad_scope with monad.
Notation "x <- c1 ;; c2" := (bind c1 (fun x => c2))
  (at level 61, c1 at next level, right associativity) : monad_scope.
Notation "' pat <- c1 ;; c2" :=
  (bind c1 (fun x => match x with pat => c2 end))
  (at level 61, pat pattern, c1 at next level, right associativity) : monad_scope.
Notation "c1 ;; c2" := (bind c1 (fun _ => c2))
  (at level 61, right associativity) : monad_scope.
Open Scope monad_scope.

Definition gets {A} (f : World -> A) : M A := fun w => (f w, w).
Definition modify (f : World -> World) : M unit := fun w => (tt, f w).
Definition emit (c : Call) : M unit :=
  modify (fun w => withTrace (trace w ++ [c]) w).
Definition refused (c : Call) : M bool :=
  gets (fun w => refuse (outside w) c).

(** [foreach (x, xs) body]. *)
Fixpoint foreach {A} (xs : list A) (body : A -> M unit) : M unit :=
  match xs with
  | [] => ret tt
  | x :: rest => body x ;; foreach rest body
  end.

(** ** The collaborators

    The history store, the transport and the file primitives are libraries
    outside the repository; they are modelled after the interfaces of the
    spec's section 6, each call traced, each fallible one failing when the
    outside refuses it. *)

(** The row of id [i], as a fetch by id finds it. *)
Definition rowById (i : Z) (s : Store) : option Event.t :=
  find (fun r => Event.id r =? i) (rows s).

Definition firstRow (r : option Event.t) : Event.t :=
  match r with Some e => e | None => Event.default end.

(** [model.getEventById(id)] paired with [model.event(model.index(0, 0))]. *)
Definition getEventById (i : Z) : M (bool * Event.t) :=
  emit (GetEventById i) ;;
  no <- refused (GetEventById i) ;;
  if no then ret (false, Event.default)
  else s <- gets db ;; ret (true, firstRow (rowById i s)).

Definition rowByTokens (mmsId : string) (groupId : Z) (s : Store) : option Event.t :=
  find (fun r => negb (isEmpty mmsId) && String.eqb (Event.mmsId r) mmsId
                 && ((groupId <? 0) || (Event.groupId r =? groupId)))
       (rows s).

(** [model.getEventByTokens(token, mmsId, groupId)], likewise. *)
Definition getEventByTokens (token mmsId : string) (groupId : Z) : M (bool * Event.t) :=
  emit (GetEventByTokens token mmsId groupId) ;;
  no <- refused (GetEventByTokens token mmsId groupId) ;;
  if no then ret (false, Event.default)
  else s <- gets db ;; ret (true, firstRow (rowByTokens mmsId groupId s)).

(** [model.addEvent(event)]: on success the event carries its new row id. *)
Definition addEvent (event : Event.t) : M (bool * Event.t) :=
  emit (AddEvent event) ;;
  no <- refused (AddEvent event) ;;
  if no then ret (false, event)
  else
    s <- gets db ;;
    let event := Event.setId (nextId s) event in
    modify (withDb (Build_Store (rows s ++ [event]) (nextId s + 1))) ;;
    ret (true, event).

Definition hasRow (i : Z) (s : Store) : bool :=
  existsb (fun r => Event.id r =? i) (rows s).

(** The store once the row of [event]'s id holds [event]. *)
Definition replaceRow (event : Event.t) (s : Store) : Store :=
  Build_Store
    (map (fun r => if Event.id r =? Event.id event then event else r) (rows s))
    (nextId s).

(** [model.modifyEvent(event)]. *)
Definition modifyEvent (event : Event.t) : M bool :=
  emit (ModifyEvent event) ;;
  no <- refused (ModifyEvent event) ;;
  s <- gets db ;;
  if no || negb (Event.isValid event) || negb (hasRow (Event.id event) s)
  then ret false
  else modify (withDb (replaceRow event s)) ;; ret true.


(** Modelled from the spec: [MessageHandlerBase::setGroupForEvent] is
    declared in the handler's base class, outside [mmshandler.cpp]; the spec
    has it "as a black-box function returning success/failure and a group
    identifier".  On success the event carries the group id. *)
Definition setGroupForEvent (event : Event.t) : M (bool * Event.t) :=
  emit (SetGroupForEvent event) ;;
  no <- refused (SetGroupForEvent event) ;;
  if no then ret (false, event)
  else
    g <- gets (fun w => groupFor (outside w)) ;;
    ret (true, Event.setGroupId (g (Event.localUid event) (Event.remoteUid event)) event).

(** Modelled from the spec: [NotificationManager::showNotification] is
    outside [mmshandler.cpp]; it is the call "present(record,
    displayIdentity, conversationKind)" of the spec's section 6, traced. *)
Definition showNotification (event : Event.t) (remoteUid : string)
    (chatType : Group.ChatType) : M unit :=
  emit (ShowNotification event remoteUid chatType).

(** [QDBusConnection::systemBus().asyncCall(call)]. *)
Definition asyncCall (call : QDBusMessage.t) : M unit := emit (AsyncCall call).

Definition fileContent (p : string) (fs : list (string * string)) : option string :=
  option_map snd (find (fun f => String.eqb (fst f) p) fs).

(** Whether a new file can appear at [dst] holding what [src] holds. *)
Definition placeFile (c : Call) (src dst : string) : M bool :=
  emit c ;;
  no <- refused c ;;
  fs <- gets files ;;
  match fileContent src fs, fileContent dst fs with
  | Some content, None =>
      if no || isEmpty dst then ret false
      else modify (withFiles ((dst, content) :: fs)) ;; ret true
  | _, _ => ret false
  end.

(** [link(2)]: 0 on success, -1 on failure. *)
Definition link (src dst : string) : M Z :=
  ok <- placeFile (Link src dst) src dst ;;
  ret (if ok then 0 else -1).

(** [QFile(src).copy(dst)]. *)
Definition QFile_copy (src dst : string) : M bool :=
  placeFile (FileCopy src dst) src dst.

(** [QFile::remove(path)]. *)
Definition QFile_remove (p : string) : M bool :=
  emit (FileRemove p) ;;
  no <- refused (FileRemove p) ;;
  fs <- gets files ;;
  match fileContent p fs with
  | Some _ =>
      if no then ret false
      else modify (withFiles (filter (fun f => negb (String.eqb (fst f) p)) fs)) ;;
           ret true
  | None => ret false
  end.

(** [MessagePart::plainTextContent]: what the part's file holds. *)
Definition plainTextContent (part : MessagePart.t) : M string :=
  fs <- gets files ;;
  ret (match fileContent (MessagePart.path part) fs with
       | Some content => content
       | None => EmptyString
       end).

(** [ContextProperty::value] and [MGConfItem::value]. *)
Definition ContextProperty_value (property : string) : M QVariant :=
  gets (fun w => contextProperty (outside w) property).

Definition MGConfItem_value (item : MGConfItem) : M QVariant :=
  gets (fun w => gconf (outside w) (key item)).

(** [QList<int>::removeOne]: drops the first occurrence, if any. *)
Fixpoint removeOne (x : Z) (l : list Z) : list Z :=
  match l with
  | [] => []
  | y :: rest => if y =? x then rest else y :: removeOne x rest
  end.

Definition setActiveEvents (l : list Z) (w : World) : World :=
  withSelf (Build_MmsHandler l (m_sendMessageFlags (self w))
                             (m_automaticDownload (self w))) w.

Definition m_activeEvents_append (i : Z) : M unit :=
  modify (fun w => setActiveEvents (m_activeEvents (self w) ++ [i]) w).

Definition m_activeEvents_removeOne (i : Z) : M unit :=
  modify (fun w => setActiveEvents (removeOne i (m_activeEvents (self w))) w).

Definition m_activeEvents_clear : M unit :=
  modify (setActiveEvents []).

(** ** The handler, method by method *)

Definition m_cellularStatusProperty : string := "Cellular.Status".
Definition m_roamingAllowedProperty : string := "Cellular.DataRoamingAllowed".
Definition m_subscriberIdentityProperty : string := "Cellular.SubscriberIdentity".

(** [enum MessageReceiveState]. *)
Definition Receiving : Z := 0.
Definition Deferred : Z := 1.
Definition NoSpace : Z := 2.
Definition Decoding : Z := 3.
Definition RecvError : Z := 4.
Definition Garbage : Z := 5.

(** [enum MessageSendState], local to [messageSendStateChanged]. *)
Module MessageSendState.
Definition Encoding : Z := 0.
Definition TooBig : Z := 1.
Definition Sending : Z := 2.
Definition Deferred : Z := 3.
Definition NoSpace : Z := 4.
Definition SendError : Z := 5.
Definition Refused : Z := 6.
End MessageSendState.

(** [enum DeliveryStatus], local to [deliveryReport]. *)
Module DeliveryStatus.
Definition Indeterminate : Z := 0.
Definition Expired : Z := 1.
Definition Retrieved : Z := 2.
Definition Rejected : Z := 3.
Definition Deferred : Z := 4.
Definition Unrecognized : Z := 5.
Definition Forwarded : Z := 6.
End DeliveryStatus.

Definition status_eqb (a b : Event.EventStatus) : bool :=
  if Event.status_eq_dec a b then true else false.

Section Handler.
Context `{Platform}.

Definition isDataProhibited : M bool :=
  status <- ContextProperty_value m_cellularStatusProperty ;;
  if negb (String.eqb (QVariant_toString status) "roaming") then ret false
  else
    allowed <- ContextProperty_value m_roamingAllowedProperty ;;
    if negb (QVariant_toBool allowed) then ret true
    else
      ask <- gets (fun w => askRoaming (outside w)) ;;
      if QVariant_toBool ask then ret true else ret false.

Definition messageNotification (imsi from subject : string) (expiry : Z)
    (data : string) : M string :=
  now <- gets (fun w => currentDateTime (outside w)) ;;
  let event := Event.default in
  let event := Event.setType Event.MMSEvent event in
  let event := Event.setStartTime now event in
  let event := Event.setEndTime (Event.startTime event) event in
  let event := Event.setDirection Event.Inbound event in
  let event := Event.setLocalUid RING_ACCOUNT_PATH event in
  let event := Event.setRemoteUid from event in
  let event := Event.setSubject subject event in
  let event := Event.setExtraProperty "mms-notification-imsi" (QStr imsi) event in
  let event := Event.setExtraProperty "mms-expiry" (QUInt expiry) event in
  let event := Event.setExtraProperty "mms-push-data" (QBytes (toBase64 data)) event in
  prohibited <- isDataProhibited ;;
  manualDownload <-
    (if prohibited then ret true
     else
       automaticDownload <- gets (fun w => m_automaticDownload (self w)) ;;
       match automaticDownload with
       | Some item => v <- MGConfItem_value item ;; ret (negb (QVariant_toBool v))
       | None => ret false
       end) ;;
  let event :=
    Event.setStatus (if manualDownload : bool then Event.ManualNotificationStatus
                     else Event.WaitingStatus) event in
  '(grouped, event) <- setGroupForEvent event ;;
  if negb grouped then ret EmptyString
  else
    '(added, event) <- addEvent event ;;
    if negb added then ret EmptyString
    else
      (if negb manualDownload then m_activeEvents_append (Event.id event)
       else showNotification event from Group.ChatTypeP2P) ;;
      ret (if manualDownload then EmptyString else QString_number (Event.id event)).

Definition messageReceiveStateChanged (recId : string) (state : Z) : M unit :=
  '(found, row) <- getEventById (toInt recId) ;;
  let event := if found : bool then row else Event.default in
  if negb (Event.isValid event) then m_activeEvents_removeOne (toInt recId)
  else
    (* the switch; [None] is its early return *)
    let newStatus :=
      if state =? Deferred then Some Event.WaitingStatus
      else if (state =? Receiving) || (state =? Decoding) then
        Some Event.DownloadingStatus
      else if (state =? NoSpace) || (state =? RecvError) then
        if status_eqb (Event.status event) Event.ManualNotificationStatus
        then None
        else Some Event.TemporarilyFailedStatus
      else if state =? Garbage then Some Event.PermanentlyFailedStatus
      else Some (Event.status event) in
    match newStatus with
    | None => ret tt
    | Some newStatus =>
        if negb (status_eqb newStatus (Event.status event)) then
          let event := Event.setStatus newStatus event in
          _ <- modifyEvent event ;;
          if negb (status_eqb newStatus Event.WaitingStatus)
             && negb (status_eqb newStatus Event.DownloadingStatus)
          then
            m_activeEvents_removeOne (Event.id event) ;;
            showNotification event (Event.remoteUid event) Group.ChatTypeP2P
          else ret tt
        else ret tt
    end.

Definition copyMessagePartFile (sourcePath : string) (eventId : Z)
    (contentId : string) : M string :=
  let filePath := messagePartPath eventId contentId in
  linked <- link sourcePath filePath ;;
  if linked <? 0 then
    copied <- QFile_copy sourcePath filePath ;;
    if negb copied then ret EmptyString else ret filePath
  else ret filePath.

(** The loop of [copyMmsPartFiles]; [eventParts] and [freeText] are the
    caller's variables, handed back with the result. *)
Fixpoint copyMmsPartFiles (parts : MmsPartList) (eventId : Z)
    (eventParts : list MessagePart.t) (freeText : string)
    : M (bool * list MessagePart.t * string) :=
  match parts with
  | [] => ret (true, eventParts, freeText)
  | part :: rest =>
      path <- copyMessagePartFile (MmsPart.fileName part) eventId
                                  (MmsPart.contentId part) ;;
      if isEmpty path then ret (false, eventParts, freeText)
      else
        let msgPart :=
          MessagePart.Build (MmsPart.contentId part) (MmsPart.contentType part) path in
        let eventParts := eventParts ++ [msgPart] in
        freeText <-
          (if startsWith (MessagePart.contentType msgPart) "text/plain" then
             content <- plainTextContent msgPart ;;
             let text := trimmed content in
             if negb (isEmpty text) then
               let freeText :=
                 if negb (isEmpty freeText) then (freeText ++ newline)%string
                 else freeText in
               ret (freeText ++ text)%string
             else ret freeText
           else ret freeText) ;;
        copyMmsPartFiles rest eventId eventParts freeText
  end.

(** [foreach (part, eventParts) QFile::remove(part.path())]. *)
Definition removePartFiles (eventParts : list MessagePart.t) : M unit :=
  foreach eventParts (fun part => _ <- QFile_remove (MessagePart.path part) ;; ret tt).




Definition messageSendStateChanged (recId : string) (state : Z) : M unit :=
  '(found, row) <- getEventById (toInt recId) ;;
  let event := if found : bool then row else Event.default in
  if negb (Event.isValid event) then m_activeEvents_removeOne (toInt recId)
  else
    let newStatus :=
      if (state =? MessageSendState.Encoding) || (state =? MessageSendState.Sending)
         || (state =? MessageSendState.Deferred)
      then Event.SendingStatus
      else if (state =? MessageSendState.TooBig) || (state =? MessageSendState.NoSpace)
              || (state =? MessageSendState.SendError)
      then Event.TemporarilyFailedStatus
      else if state =? MessageSendState.Refused then Event.PermanentlyFailedStatus
      else Event.status event in
    if negb (status_eqb newStatus (Event.status event)) then
      let event := Event.setStatus newStatus event in
      _ <- modifyEvent event ;;
      if negb (status_eqb newStatus Event.SendingStatus) then
        m_activeEvents_removeOne (Event.id event) ;;
        showNotification event (Event.remoteUid event) Group.ChatTypeP2P
      else ret tt
    else ret tt.

Definition messageSent (recId mmsId : string) : M unit :=
  '(found, row) <- getEventById (toInt recId) ;;
  let event := if found : bool then row else Event.default in
  m_activeEvents_removeOne (toInt recId) ;;
  if negb (Event.isValid event) then ret tt
  else
    let event := Event.setStatus Event.SentStatus event in
    let event := Event.setMmsId mmsId event in
    _ <- modifyEvent event ;;
    ret tt.

Definition deliveryReport (imsi mmsId recipient : string) (status : Z) : M unit :=
  '(found, row) <- getEventByTokens EmptyString mmsId (-1) ;;
  let event := if found : bool then row else Event.default in
  if negb (Event.isValid event) then ret tt
  else
    let event :=
      if (status =? DeliveryStatus.Expired) || (status =? DeliveryStatus.Rejected)
         || (status =? DeliveryStatus.Unrecognized)
      then Event.setStatus Event.TemporarilyFailedStatus event
      else if status =? DeliveryStatus.Retrieved
      then Event.setStatus Event.DeliveredStatus event
      else event in
    _ <- modifyEvent event ;;
    ret tt.

Definition readReport (imsi mmsId recipient : string) (status : Z) : M unit :=
  '(found, row) <- getEventByTokens EmptyString mmsId (-1) ;;
  let event := if found : bool then row else Event.default in
  if negb (Event.isValid event) then ret tt
  else
    let event :=
      if status =? 0 then Event.setReadStatus Event.ReadStatusRead event
      else Event.setReadStatus Event.ReadStatusDeleted event in
    _ <- modifyEvent event ;;
    ret tt.

Definition normalizeNumberList (l : list string) : list string :=
  map (fun s => normalizePhoneNumber s false) l.

(** [sendMessageFromEvent(Event &event)]. *)
Definition sendMessageFromEvent (event : Event.t) : M unit :=
  let parts :=
    map (fun part => MmsPart.Build (MessagePart.path part)
                                   (MessagePart.contentType part)
                                   (MessagePart.contentId part))
        (Event.messageParts event) in
  sendMessageFlags <- gets (fun w => m_sendMessageFlags (self w)) ;;
  flags <-
    match sendMessageFlags with
    | Some item => v <- MGConfItem_value item ;;
                   ret (fst (QVariant_toInt v) mod 2 ^ 32)
    | None => ret 0
    end ;;
  let args :=
    [QInt (Event.id event); QStr EmptyString; QStrList (Event.toList event);
     QStrList (Event.ccList event); QStrList (Event.bccList event);
     QStr (Event.subject event); QUInt flags; QParts parts] in
  m_activeEvents_append (Event.id event) ;;
  let call := QDBusMessage.createMethodCall "org.nemomobile.MmsEngine" "/"
                "org.nemomobile.MmsEngine" "sendMessage" in
  let call := QDBusMessage.setArguments args call in
  asyncCall call ;;
  emit (NewWatcher (QInt (Event.id event))).

(** [sendMessage] from the first statement after [to[0]] up to the saving
    of the new event: [None] stands for its three [return -1]. *)
Definition sendMessage_createEvent (to0 : string) (to cc bcc : list string)
    (subject : string) : M (option Event.t) :=
  now <- gets (fun w => currentDateTime (outside w)) ;;
  let event := Event.default in
  let event := Event.setType Event.MMSEvent event in
  let event := Event.setStartTime now event in
  let event := Event.setEndTime (Event.startTime event) event in
  let event := Event.setDirection Event.Outbound event in
  let event := Event.setLocalUid RING_ACCOUNT_PATH event in
  let event := Event.setSubject subject event in
  let event := Event.setStatus Event.SendingStatus event in
  let event := Event.setIsRead true event in
  let event := Event.setRemoteUid (normalizePhoneNumber to0 false) event in
  let event := Event.setToList (normalizeNumberList to) event in
  let event := Event.setCcList (normalizeNumberList cc) event in
  let event := Event.setBccList (normalizeNumberList bcc) event in
  (* XXX Group conversations not yet supported *)
  if Z.of_nat (List.length to) + Z.of_nat (List.length cc) + Z.of_nat (List.length bcc) >? 1
  then ret None
  else
    '(grouped, event) <- setGroupForEvent event ;;
    if negb grouped then ret None
    else
      (* Save to get an event ID *)
      '(added, event) <- addEvent event ;;
      if negb added then ret None else ret (Some event).

(** The rest of [sendMessage]: copy the parts, commit, dispatch. *)
Definition sendMessage_copyParts (event : Event.t) (parts : MmsPartList) : M Z :=
  '(ok, eventParts, freeText) <- copyMmsPartFiles parts (Event.id event) [] EmptyString ;;
  '(ok, event) <-
    (if ok : bool then
       let event := Event.setMessageParts eventParts event in
       let event := Event.setFreeText freeText event in
       modified <- modifyEvent event ;;
       ret (if negb modified then false else ok, event)
     else ret (ok, event)) ;;
  event <-
    (if negb ok then
       (* Clean up copied MMS parts *)
       removePartFiles eventParts ;;
       if 0 <=? Event.id event then
         '(found, row) <- getEventById (Event.id event) ;;
         if found : bool then
           let event := row in
           if Event.isValid event then
             let event := Event.setStatus Event.PermanentlyFailedStatus event in
             _ <- modifyEvent event ;;
             ret event
           else ret event
         else ret event
       else ret event
     else
       prohibited <- isDataProhibited ;;
       if prohibited : bool then
         let event := Event.setStatus Event.TemporarilyFailedStatus event in
         _ <- modifyEvent event ;;
         ret event
       else
         sendMessageFromEvent event ;;
         ret event) ;;
  (if Event.atLeastTemporarilyFailed (Event.status event) then
     showNotification event (Event.remoteUid event) Group.ChatTypeP2P
   else ret tt) ;;
  ret (Event.id event).

(** [sendMessage]: [to[0]] is read before anything is checked; on an empty
    [to] the read is out of range and the call has no defined outcome. *)
Definition sendMessage (to cc bcc : list string) (subject : string)
    (parts : MmsPartList) : World -> option (Z * World) :=
  fun w =>
    match nth_error to 0 with
    | None => None
    | Some to0 =>
        Some ((created <- sendMessage_createEvent to0 to cc bcc subject ;;
               match created with
               | None => ret (-1)
               | Some event => sendMessage_copyParts event parts
               end) w)
    end.

(** [sendMessageFromEvent(int eventId)]. *)
Definition sendMessageFromEvent_int (eventId : Z) : M unit :=
  '(found, row) <- getEventById eventId ;;
  let event := if found : bool then row else Event.default in
  if negb (Event.isValid event)
     || (if Event.type_eq_dec (Event.type event) Event.MMSEvent then false else true)
     || (if Event.direction_eq_dec (Event.direction event) Event.Outbound
         then false else true)
  then ret tt
  else if Z.of_nat (List.length (Event.toList event)) + Z.of_nat (List.length (Event.ccList event))
          + Z.of_nat (List.length (Event.bccList event)) <? 1
  then ret tt
  else if Z.of_nat (List.length (Event.messageParts event)) <? 1 then ret tt
  else
    event <-
      (if negb (status_eqb (Event.status event) Event.SendingStatus) then
         let event := Event.setStatus Event.SendingStatus event in
         _ <- modifyEvent event ;;
         ret event
       else ret event) ;;
    sendMessageFromEvent event.

Definition sendMessageFinished (call : QDBusPendingCallWatcher.t) : M unit :=
  let '(eventId, ok) := QVariant_toInt (QDBusPendingCallWatcher.mms_event_id call) in
  event <-
    (if ok : bool then
       '(found, row) <- getEventById eventId ;;
       ret (if found : bool then row else Event.default)
     else ret Event.default) ;;
  event <-
    match QDBusPendingCallWatcher.reply call with
    | ReplyError _ =>
        let event := Event.setStatus Event.TemporarilyFailedStatus event in
        showNotification event (Event.remoteUid event) Group.ChatTypeP2P ;;
        ret event
    | ReplyValue v =>
        ret (Event.setExtraProperty "mms-notification-imsi" (QStr v) event)
    end ;;
  _ <- modifyEvent event ;;
  ret tt.

(** The [cancel] call of [onDataProhibitedChanged]. *)
Definition cancelCall (eventId : Z) : QDBusMessage.t :=
  QDBusMessage.setArguments [QInt eventId]
    (QDBusMessage.createMethodCall "org.nemomobile.MmsEngine" "/"
       "org.nemomobile.MmsEngine" "cancel").

Definition onDataProhibitedChanged : M unit :=
  active <- gets (fun w => m_activeEvents (self w)) ;;
  match active with
  | [] => ret tt
  | _ :: _ =>
      prohibited <- isDataProhibited ;;
      if prohibited : bool then
        (* Cancel any active events to prevent automatic retries *)
        foreach active (fun eventId => asyncCall (cancelCall eventId)) ;;
        m_activeEvents_clear
      else ret tt
  end.

Definition onSubscriberIdentityChanged : M unit :=
  v <- ContextProperty_value m_subscriberIdentityProperty ;;
  let imsi := QVariant_toString v in
  if isEmpty imsi then
    modify (fun w => withSelf (Build_MmsHandler (m_activeEvents (self w)) None None) w)
  else
    let dir := ("/imsi/" ++ imsi ++ "/mms/")%string in
    modify (fun w => withSelf
      (Build_MmsHandler (m_activeEvents (self w))
         (Some (newMGConfItem (dir ++ "send-flags")))
         (Some (newMGConfItem (dir ++ "automatic-download")))) w).

(** The constructor: no active event, no configuration item, then the
    first [onSubscriberIdentityChanged]. *)
Definition MmsHandler_new : M unit :=
  modify (withSelf (Build_MmsHandler [] None None)) ;;
  onSubscriberIdentityChanged.

End Handler.

(** ** A concrete platform and concrete worlds, for the examples *)

Definition isSpace (c : ascii) : bool :=
  let n := N_of_ascii c in ((9 <=? n) && (n <=? 13) || (n =? 32))%N.

Fixpoint trimLeft (s : string) : string :=
  match s with
  | String c r => if isSpace c then trimLeft r else s
  | EmptyString => EmptyString
  end.

Fixpoint trimRight (s : string) : string :=
  match s with
  | String c r =>
      match trimRight r with
      | EmptyString => if isSpace c then EmptyString else String c EmptyString
      | r' => String c r'
      end
  | EmptyString => EmptyString
  end.

Definition decimalToInt (s : string) : Z * bool :=
  match NilZero.int_of_string s with
  | Some i => (Z.of_int i, true)
  | None => (0, false)
  end.

Definition examplePlatform : Platform := {|
  RING_ACCOUNT_PATH := "/org/freedesktop/Telepathy/Account/ring/tel/account0";
  QString_toInt := decimalToInt;
  trimmed := fun s => trimRight (trimLeft s);
  toBase64 := fun s => s;
  normalizePhoneNumber := fun s _ => s;
  messagePartPath := fun eventId contentId =>
    ("/commhistory/data/" ++ QString_number eventId ++ "/" ++ contentId)%string
|}.

(** At home, with a subscriber identity whose configuration enables
    automatic download; the store and the handler are empty, one part file
    waits in the transport's directory, nothing is refused. *)
Definition homeOutside : Outside := {|
  contextProperty := fun k =>
    if String.eqb k "Cellular.Status" then QStr "home"
    else if String.eqb k "Cellular.DataRoamingAllowed" then QBool false
    else if String.eqb k "Cellular.SubscriberIdentity" then QStr "244050000000001"
    else QInvalid;
  gconf := fun k =>
    if String.eqb k "/imsi/244050000000001/mms/automatic-download" then QBool true
    else QInvalid;
  askRoaming := QBool false;
  currentDateTime := 1400000000;
  groupFor := fun _ _ => 7;
  refuse := fun _ => false
|}.

Definition roamingOutside : Outside := {|
  contextProperty := fun k =>
    if String.eqb k "Cellular.Status" then QStr "roaming"
    else contextProperty homeOutside k;
  gconf := gconf homeOutside;
  askRoaming := askRoaming homeOutside;
  currentDateTime := currentDateTime homeOutside;
  groupFor := groupFor homeOutside;
  refuse := refuse homeOutside
|}.

Definition emptyWorld (o : Outside) : World := {|
  self := Build_MmsHandler [] None None;
  db := Build_Store [] 1;
  files := [("/tmp/mms/part1"%string, "hello"%string)];
  trace := [];
  outside := o
|}.

(** Running one handler after another. *)
Definition after {A} (m : M A) (w : World) : World := snd (m w).

(** No subscriber identity, otherwise as at home. *)
Definition noIdentityOutside : Outside := {|
  contextProperty := fun k =>
    if String.eqb k "Cellular.SubscriberIdentity" then QStr EmptyString
    else contextProperty homeOutside k;
  gconf := fun _ => QInvalid;
  askRoaming := askRoaming homeOutside;
  currentDateTime := currentDateTime homeOutside;
  groupFor := groupFor homeOutside;
  refuse := refuse homeOutside
|}.

(** The handler once constructed, in each of the three surroundings. *)
Definition homeWorld : World :=
  after (@MmsHandler_new) (emptyWorld homeOutside).
Definition roamingWorld : World :=
  after (@MmsHandler_new) (emptyWorld roamingOutside).
Definition noIdentityWorld : World :=
  after (@MmsHandler_new) (emptyWorld noIdentityOutside).

Definition notify : M string :=
  @messageNotification examplePlatform "244050000000001" "+358401234567" "hi" 3600
                       EmptyString.

(** After one notification: record 1 waits at home, is held when roaming. *)
Definition waitingWorld : World := after notify homeWorld.
Definition heldWorld : World := after notify roamingWorld.

Definition textPart : MmsPart.t :=
  MmsPart.Build "/tmp/mms/part1" "text/plain" "part1".

(** After [sendMessage] of one text part to one recipient: record 1 is
    being sent. *)
Definition sendingWorld : World :=
  match @sendMessage examplePlatform ["+358401234567"%string] [] [] "hi" [textPart] homeWorld with
  | Some (_, w) => w
  | None => homeWorld
  end.

(** The transport's call for record 1 comes back with an error. *)
Definition failedCall : QDBusPendingCallWatcher.t :=
  QDBusPendingCallWatcher.Build (QInt 1) (ReplyError "org.freedesktop.DBus.Error.NoReply").

(** At home with automatic download configured off. *)
Definition manualOutside : Outside := {|
  contextProperty := contextProperty homeOutside;
  gconf := fun k =>
    if String.eqb k "/imsi/244050000000001/mms/automatic-download" then QBool false
    else QInvalid;
  askRoaming := askRoaming homeOutside;
  currentDateTime := currentDateTime homeOutside;
  groupFor := groupFor homeOutside;
  refuse := refuse homeOutside
|}.

Definition manualWorld : World :=
  after (@MmsHandler_new) (emptyWorld manualOutside).

Definition waitingRecord : Event.t := firstRow (rowById 1 (db waitingWorld)).
Definition heldRecord : Event.t := firstRow (rowById 1 (db heldWorld)).
Definition sendingRecord : Event.t := firstRow (rowById 1 (db sendingWorld)).


(** ** What the claims speak about *)

(** The in-progress statuses of the Active Set invariant. *)
Definition inProgress (s : Event.EventStatus) : bool :=
  match s with
  | Event.WaitingStatus | Event.DownloadingStatus | Event.SendingStatus => true
  | _ => false
  end.

(** Every id of the active list names a stored record whose status is in
    progress. *)
Definition activeSetInvariant (w : World) : bool :=
  forallb (fun i => match rowById i (db w) with
                    | Some e => inProgress (Event.status e)
                    | None => false
                    end)
          (m_activeEvents (self w)).

(** The calls traced between two worlds of one run. *)
Definition tracedSince (w w' : World) : list Call :=
  skipn (List.length (trace w)) (trace w').

Definition isPersist (c : Call) : bool :=
  match c with ModifyEvent _ => true | _ => false end.

Definition isStoreMutation (c : Call) : bool :=
  match c with AddEvent _ | ModifyEvent _ | MoveEvent _ _ => true | _ => false end.

Definition isNotification (c : Call) : bool :=
  match c with ShowNotification _ _ _ => true | _ => false end.

Definition isCancelOf (i : Z) (c : Call) : bool :=
  match c with
  | AsyncCall msg =>
      String.eqb (QDBusMessage.method msg) "cancel"
      && match QDBusMessage.arguments msg with
         | [QInt j] => j =? i
         | _ => false
         end
  | _ => false
  end.

Definition count (p : Call -> bool) (t : list Call) : nat :=
  List.length (filter p t).

(** The store answers a fetch of row [i] with the valid record [e]. *)
Definition recordOf (w : World) (i : Z) (e : Event.t) : Prop :=
  refuse (outside w) (GetEventById i) = false
  /\ rowById i (db w) = Some e
  /\ Event.isValid e = true.

(** The table of the spec's section 4.1 for [receiveStateChanged], read
    from the spec: the status a state code maps to, given the current one. *)
Definition receiveTable (state : Z) (current : Event.EventStatus) : Event.EventStatus :=
  if (state =? Receiving) || (state =? Decoding) then Event.DownloadingStatus
  else if state =? Deferred then Event.WaitingStatus
  else if (state =? NoSpace) || (state =? RecvError) then
    match current with
    | Event.ManualNotificationStatus => Event.ManualNotificationStatus
    | _ => Event.TemporarilyFailedStatus
    end
  else if state =? Garbage then Event.PermanentlyFailedStatus
  else current.











(** ** Proofs *)

Section Properties.
Context `{Platform}.

Ltac calc :=
  cbn [fst snd self db files trace outside withSelf withDb withFiles withTrace
       setActiveEvents m_activeEvents m_sendMessageFlags m_automaticDownload
       rows nextId firstRow negb andb orb] in *.

Ltac run :=
  unfold m_activeEvents_append, m_activeEvents_removeOne, m_activeEvents_clear,
    showNotification, asyncCall, emit, refused, after in *;
  unfold bind, ret, gets, modify in *;
  calc.

(** *** Records, traces and the store *)

Lemma setStatus_same (e : Event.t) : Event.setStatus (Event.status e) e = e.
Proof. destruct e; reflexivity. Qed.

Lemma setReadStatus_same (e : Event.t) :
  Event.setReadStatus (Event.readStatus e) e = e.
Proof. destruct e; reflexivity. Qed.

Lemma tracedSince_app (w w' : World) (t : list Call) :
  trace w' = trace w ++ t -> tracedSince w w' = t.
Proof.
  unfold tracedSince; intros ->.
  rewrite skipn_app, skipn_all, Nat.sub_diag; reflexivity.
Qed.

(** *** [sendMessage] and its first recipient *)

(** C10: with an empty [to] the read of [to[0]] is out of range, so the call
    has no defined outcome whatever [cc] and [bcc] hold, the rejection of
    more than one recipient is never reached; with a first [to] entry the
    call always has an outcome. *)
Theorem sendMessage_needs_first_recipient :
  (forall cc bcc subject parts w, sendMessage [] cc bcc subject parts w = None)
  /\ (forall to0 to cc bcc subject parts w,
        exists r, sendMessage (to0 :: to) cc bcc subject parts w = Some r).
Proof.
  split.
  - reflexivity.
  - intros; unfold sendMessage; cbn [nth_error]; eexists; reflexivity.
Qed.

(** *** Receive states *)

(** C8: a record in [ManualNotification] status is left as it is by a
    [NoSpace] or [RecvError] receive state: the call fetches the record and
    returns, so the world is the one before but for the traced fetch: no
    persist, no notification, the same store and the same active list. *)
Theorem manual_notification_survives_receive_failure :
  forall recId state w e,
    recordOf w (toInt recId) e ->
    Event.status e = Event.ManualNotificationStatus ->
    state = NoSpace \/ state = RecvError ->
    let w' := after (messageReceiveStateChanged recId state) w in
    w' = withTrace (trace w ++ [GetEventById (toInt recId)]) w
    /\ rowById (toInt recId) (db w') = Some e
    /\ count isPersist (tracedSince w w') = 0%nat
    /\ count isNotification (tracedSince w w') = 0%nat
    /\ m_activeEvents (self w') = m_activeEvents (self w).
Proof.
  intros recId state w e (Hfetch & Hrow & Hvalid) Hstatus Hstate w'.
  assert (Hw' : w' = withTrace (trace w ++ [GetEventById (toInt recId)]) w).
  { subst w'; unfold messageReceiveStateChanged, getEventById; run.
    rewrite Hfetch; calc.
    rewrite Hrow; calc.
    rewrite Hvalid, Hstatus; calc.
    destruct Hstate as [-> | ->]; reflexivity. }
  split; [exact Hw'|].
  rewrite Hw'; calc.
  split; [exact Hrow|].
  erewrite tracedSince_app by reflexivity.
  repeat split.
Qed.

Lemma getEventById_run (i : Z) (w : World) :
  getEventById i w
  = (if refuse (outside w) (GetEventById i) then (false, Event.default)
     else (true, firstRow (rowById i (db w))),
     withTrace (trace w ++ [GetEventById i]) w).
Proof.
  unfold getEventById; run.
  destruct (refuse (outside w) (GetEventById i)); reflexivity.
Qed.

Lemma modifyEvent_run (event : Event.t) (w : World) :
  modifyEvent event w
  = let w0 := withTrace (trace w ++ [ModifyEvent event]) w in
    if refuse (outside w) (ModifyEvent event) || negb (Event.isValid event)
       || negb (hasRow (Event.id event) (db w))
    then (false, w0)
    else (true, withDb (replaceRow event (db w)) w0).
Proof.
  unfold modifyEvent; run.
  destruct (refuse (outside w) (ModifyEvent event) || negb (Event.isValid event)
            || negb (hasRow (Event.id event) (db w))); reflexivity.
Qed.

Lemma rowById_id (i : Z) (s : Store) (e : Event.t) :
  rowById i s = Some e -> Event.id e = i.
Proof.
  unfold rowById; intros Hf; apply find_some in Hf; lia.
Qed.

Lemma rowById_hasRow (i : Z) (s : Store) (e : Event.t) :
  rowById i s = Some e -> hasRow i s = true.
Proof.
  unfold rowById, hasRow; intros Hf; apply find_some in Hf.
  apply existsb_exists; exists e; exact Hf.
Qed.

Lemma rowById_replaceRow (i : Z) (s : Store) (e event : Event.t) :
  rowById i s = Some e -> Event.id event = i ->
  rowById i (replaceRow event s) = Some event.
Proof.
  unfold rowById, replaceRow; cbn [rows]; intros Hf Hid.
  rewrite Hid.
  induction (rows s) as [|r rs IH]; cbn [find map] in *; [discriminate|].
  destruct (Event.id r =? i) eqn:E.
  - rewrite Hid, Z.eqb_refl; reflexivity.
  - rewrite E; auto.
Qed.

Ltac state_cases state :=
  repeat match goal with
         | |- context [state =? ?k] =>
             destruct (Z.eqb_spec state k);
             try (exfalso;
                  unfold Receiving, Deferred, NoSpace, Decoding, RecvError, Garbage in *;
                  lia)
         end.

Lemma receiveStateChanged_run (recId : string) (state : Z) (w : World) (e : Event.t) :
  recordOf w (toInt recId) e ->
  let newStatus := receiveTable state (Event.status e) in
  let updated := Event.setStatus newStatus e in
  let w0 := withTrace (trace w ++ [GetEventById (toInt recId)]) w in
  messageReceiveStateChanged recId state w
  = if status_eqb newStatus (Event.status e) then (tt, w0)
    else
      let (_, w1) := modifyEvent updated w0 in
      if inProgress newStatus then (tt, w1)
      else (tt, withTrace (trace w1 ++ [ShowNotification updated (Event.remoteUid e) Group.ChatTypeP2P])
                  (setActiveEvents (removeOne (Event.id e) (m_activeEvents (self w1))) w1)).
Proof.
  intros (Hfetch & Hrow & Hvalid).
  unfold messageReceiveStateChanged, bind at 1.
  rewrite getEventById_run, Hfetch, Hrow; calc.
  rewrite Hvalid; calc.
  unfold receiveTable.
  state_cases state; calc;
    destruct (Event.status e) eqn:Hs; cbn; try reflexivity.
  all: run; destruct (modifyEvent _ _); reflexivity.
Qed.

Lemma receiveTable_idempotent (state : Z) (c : Event.EventStatus) :
  receiveTable state (receiveTable state c) = receiveTable state c.
Proof.
  unfold receiveTable.
  destruct ((state =? Receiving) || (state =? Decoding)); [reflexivity|].
  destruct (state =? Deferred); [reflexivity|].
  destruct ((state =? NoSpace) || (state =? RecvError)); [destruct c; reflexivity|].
  destruct (state =? Garbage); reflexivity.
Qed.

Lemma status_eqb_refl (s : Event.EventStatus) : status_eqb s s = true.
Proof. unfold status_eqb; destruct (Event.status_eq_dec s s); congruence. Qed.

Lemma count_app (p : Call -> bool) (a b : list Call) :
  count p (a ++ b) = (count p a + count p b)%nat.
Proof. unfold count; rewrite filter_app, length_app; reflexivity. Qed.

(** C3, as amended: on an existing record the status computed for a state
    code is the one of the table of section 4.1, with its exception for a
    record held in [ManualNotification] and with any other code leaving the
    status as it is; the first call persists once when that status differs
    from the record's and not at all when it is the record's status already;
    when the store accepts the update the record carries the table's status
    and a second call with the same code persists nothing. *)
Theorem receive_state_follows_table :
  forall recId state w e,
    recordOf w (toInt recId) e ->
    let newStatus := receiveTable state (Event.status e) in
    let updated := Event.setStatus newStatus e in
    let w1 := after (messageReceiveStateChanged recId state) w in
    let w2 := after (messageReceiveStateChanged recId state) w1 in
    count isPersist (tracedSince w w1)
    = (if status_eqb newStatus (Event.status e) then 0 else 1)%nat
    /\ (refuse (outside w) (ModifyEvent updated) = false ->
        rowById (toInt recId) (db w1) = Some updated
        /\ count isPersist (tracedSince w1 w2) = 0%nat).
Proof.
  intros recId state w e Hrec newStatus updated w1 w2.
  assert (Hw1 := receiveStateChanged_run recId state w e Hrec).
  destruct Hrec as (Hfetch & Hrow & Hvalid).
  fold newStatus in Hw1; subst updated.
  assert (Hid : Event.id (Event.setStatus newStatus e) = toInt recId)
    by (apply (rowById_id _ _ _ Hrow)).
  split.
  - subst w1; unfold after; rewrite Hw1.
    destruct (status_eqb newStatus (Event.status e)).
    + erewrite tracedSince_app by reflexivity; reflexivity.
    + rewrite modifyEvent_run; cbv zeta.
      match goal with |- context [if ?c then (false, _) else _] => destruct c end;
        destruct (inProgress newStatus); cbn [snd];
        (erewrite tracedSince_app;
         [| calc; rewrite <- ?app_assoc; reflexivity]); reflexivity.
  - intros Hok.
    assert (Hdb : rowById (toInt recId) (db w1) = Some (Event.setStatus newStatus e)
                  /\ outside w1 = outside w).
    { subst w1; unfold after; rewrite Hw1.
      destruct (status_eqb newStatus (Event.status e)) eqn:Heq.
      - calc. unfold status_eqb in Heq.
        destruct (Event.status_eq_dec newStatus (Event.status e)) as [E|]; [|discriminate].
        rewrite E, setStatus_same; auto.
      - rewrite modifyEvent_run; cbv zeta; calc.
        rewrite Hok, Hid, (rowById_hasRow _ _ _ Hrow).
        change (Event.isValid (Event.setStatus newStatus e)) with (Event.isValid e).
        rewrite Hvalid; calc.
        destruct (inProgress newStatus); calc;
          (split; [eapply rowById_replaceRow; eauto | reflexivity]). }
    destruct Hdb as (Hdb & Hout).
    split; [exact Hdb|].
    assert (Hrec1 : recordOf w1 (toInt recId) (Event.setStatus newStatus e)).
    { unfold recordOf; rewrite Hout; repeat split; auto. }
    subst w2; unfold after.
    rewrite (receiveStateChanged_run recId state w1 _ Hrec1); cbv zeta.
    change (Event.status (Event.setStatus newStatus e)) with newStatus.
    subst newStatus; rewrite receiveTable_idempotent, status_eqb_refl.
    erewrite tracedSince_app by reflexivity; reflexivity.
Qed.

(** *** Delivery and read reports *)

Lemma getEventByTokens_run (token mmsId : string) (groupId : Z) (w : World) :
  getEventByTokens token mmsId groupId w
  = (if refuse (outside w) (GetEventByTokens token mmsId groupId)
     then (false, Event.default)
     else (true, firstRow (rowByTokens mmsId groupId (db w))),
     withTrace (trace w ++ [GetEventByTokens token mmsId groupId]) w).
Proof.
  unfold getEventByTokens; run.
  destruct (refuse (outside w) (GetEventByTokens token mmsId groupId)); reflexivity.
Qed.

(** What a report may do to the world: nothing but trace its fetch, or
    also write the fetched record back with [change] applied, which the
    store takes or refuses. *)
Lemma report_run (mmsId : string) (change : Event.t -> Event.t) (w : World) :
  (forall e, Event.id (change e) = Event.id e) ->
  let fetch := GetEventByTokens EmptyString mmsId (-1) in
  let w1 := after ('(found, row) <- getEventByTokens EmptyString mmsId (-1) ;;
                   let event := if found : bool then row else Event.default in
                   if negb (Event.isValid event) then ret tt
                   else _ <- modifyEvent (change event) ;; ret tt) w in
  self w1 = self w
  /\ files w1 = files w
  /\ ((tracedSince w w1 = [fetch] /\ db w1 = db w)
      \/ exists e,
           rowByTokens mmsId (-1) (db w) = Some e
           /\ tracedSince w w1 = [fetch; ModifyEvent (change e)]
           /\ (db w1 = db w \/ db w1 = replaceRow (change e) (db w))).
Proof.
  intros Hid fetch w1.
  assert (Hw1 : w1 = after ('(found, row) <- getEventByTokens EmptyString mmsId (-1) ;;
                   let event := if found : bool then row else Event.default in
                   if negb (Event.isValid event) then ret tt
                   else _ <- modifyEvent (change event) ;; ret tt) w) by reflexivity.
  clearbody w1.
  unfold after in Hw1; unfold bind at 1 in Hw1.
  rewrite getEventByTokens_run in Hw1.
  assert (Hnone : w1 = withTrace (trace w ++ [fetch]) w ->
                  self w1 = self w /\ files w1 = files w
                  /\ ((tracedSince w w1 = [fetch] /\ db w1 = db w)
                      \/ exists e,
                           rowByTokens mmsId (-1) (db w) = Some e
                           /\ tracedSince w w1 = [fetch; ModifyEvent (change e)]
                           /\ (db w1 = db w \/ db w1 = replaceRow (change e) (db w)))).
  { intros ->; repeat split; left; split; [apply tracedSince_app|]; reflexivity. }
  destruct (refuse (outside w) (GetEventByTokens EmptyString mmsId (-1)));
    [exact (Hnone Hw1)|].
  destruct (rowByTokens mmsId (-1) (db w)) as [e|] eqn:Hrow; calc;
    [|exact (Hnone Hw1)].
  destruct (Event.isValid e) eqn:Hvalid; calc; [|exact (Hnone Hw1)].
  clear Hnone.
  unfold bind, ret in Hw1; rewrite modifyEvent_run in Hw1; cbv zeta in Hw1.
  match type of Hw1 with context [if ?c then (false, _) else _] => destruct c end;
    calc; subst w1; (split; [reflexivity|]); (split; [reflexivity|]);
    right; exists e; (split; [reflexivity|]);
    (split; [apply tracedSince_app; calc; rewrite <- app_assoc; reflexivity|]);
    [left | right]; reflexivity.
Qed.

(** C9: a delivery report and a read report leave the handler's members,
    hence the active list, as they are and raise no notification: all a
    report does is fetch the record by its correlation id and, when it is
    known, write it back with the status (delivery report) or the read
    status (read report) set; an unknown id changes nothing. *)
Theorem reports_are_silent_bookkeeping :
  forall imsi mmsId recipient status w,
    let fetch := GetEventByTokens EmptyString mmsId (-1) in
    let wd := after (deliveryReport imsi mmsId recipient status) w in
    let wr := after (readReport imsi mmsId recipient status) w in
    (m_activeEvents (self wd) = m_activeEvents (self w)
     /\ count isNotification (tracedSince w wd) = 0%nat
     /\ ((tracedSince w wd = [fetch] /\ db wd = db w)
         \/ exists e s,
              rowByTokens mmsId (-1) (db w) = Some e
              /\ tracedSince w wd = [fetch; ModifyEvent (Event.setStatus s e)]
              /\ (db wd = db w \/ db wd = replaceRow (Event.setStatus s e) (db w))))
    /\ (m_activeEvents (self wr) = m_activeEvents (self w)
        /\ count isNotification (tracedSince w wr) = 0%nat
        /\ ((tracedSince w wr = [fetch] /\ db wr = db w)
            \/ exists e s,
                 rowByTokens mmsId (-1) (db w) = Some e
                 /\ tracedSince w wr = [fetch; ModifyEvent (Event.setReadStatus s e)]
                 /\ (db wr = db w \/ db wr = replaceRow (Event.setReadStatus s e) (db w)))).
Proof.
  intros imsi mmsId recipient status w fetch wd wr; split.
  - pose (change := fun event =>
      if (status =? DeliveryStatus.Expired) || (status =? DeliveryStatus.Rejected)
         || (status =? DeliveryStatus.Unrecognized)
      then Event.setStatus Event.TemporarilyFailedStatus event
      else if status =? DeliveryStatus.Retrieved
      then Event.setStatus Event.DeliveredStatus event
      else event).
    destruct (report_run mmsId change w) as (Hself & _ & Hdb).
    { intros e; unfold change.
      destruct ((status =? DeliveryStatus.Expired) || (status =? DeliveryStatus.Rejected)
                || (status =? DeliveryStatus.Unrecognized)); [reflexivity|].
      destruct (status =? DeliveryStatus.Retrieved); reflexivity. }
    change (after _ w) with wd in Hself, Hdb.
    split; [rewrite Hself; reflexivity|].
    destruct Hdb as [(Ht & Hd) | (e & Hrow & Ht & Hd)].
    + split; [rewrite Ht; reflexivity|]. left; auto.
    + split; [rewrite Ht; reflexivity|]. right; exists e.
      assert (Hs : exists s, change e = Event.setStatus s e).
      { unfold change.
        destruct ((status =? DeliveryStatus.Expired) || (status =? DeliveryStatus.Rejected)
                  || (status =? DeliveryStatus.Unrecognized)); [eexists; reflexivity|].
        destruct (status =? DeliveryStatus.Retrieved); [eexists; reflexivity|].
        exists (Event.status e); symmetry; apply setStatus_same. }
      destruct Hs as (s & Hs); exists s; rewrite <- Hs; auto.
  - pose (change := fun event =>
      if status =? 0 then Event.setReadStatus Event.ReadStatusRead event
      else Event.setReadStatus Event.ReadStatusDeleted event).
    destruct (report_run mmsId change w) as (Hself & _ & Hdb).
    { intros e; unfold change; destruct (status =? 0); reflexivity. }
    change (after _ w) with wr in Hself, Hdb.
    split; [rewrite Hself; reflexivity|].
    destruct Hdb as [(Ht & Hd) | (e & Hrow & Ht & Hd)].
    + split; [rewrite Ht; reflexivity|]. left; auto.
    + split; [rewrite Ht; reflexivity|]. right; exists e.
      assert (Hs : exists s, change e = Event.setReadStatus s e)
        by (unfold change; destruct (status =? 0); eexists; reflexivity).
      destruct Hs as (s & Hs); exists s; rewrite <- Hs; auto.
Qed.

(** *** Cancellation when data becomes prohibited *)

Lemma withTrace_same (w : World) : withTrace (trace w) w = w.
Proof. destruct w; reflexivity. Qed.

Lemma foreach_cancel (l : list Z) (w : World) :
  foreach l (fun eventId => asyncCall (cancelCall eventId)) w
  = (tt, withTrace (trace w ++ map (fun i => AsyncCall (cancelCall i)) l) w).
Proof.
  revert w; induction l as [|i l IH]; intros w; cbn [foreach map].
  - unfold ret; rewrite app_nil_r, withTrace_same; reflexivity.
  - unfold bind at 1; unfold asyncCall, emit, modify.
    rewrite IH; calc. rewrite <- app_assoc; reflexivity.
Qed.

Lemma isDataProhibited_reads (w : World) : snd (isDataProhibited w) = w.
Proof.
  unfold isDataProhibited, ContextProperty_value; run.
  repeat match goal with |- context [if ?c then _ else _] => destruct c end;
    reflexivity.
Qed.

Lemma count_cancel (i : Z) (l : list Z) :
  count (isCancelOf i) (map (fun j => AsyncCall (cancelCall j)) l)
  = count_occ Z.eq_dec l i.
Proof.
  unfold count; induction l as [|j l IH]; [reflexivity|].
  cbn [map filter isCancelOf cancelCall QDBusMessage.setArguments
       QDBusMessage.createMethodCall QDBusMessage.method QDBusMessage.arguments
       count_occ].
  rewrite String.eqb_refl; cbn [andb].
  destruct (Z.eqb_spec j i), (Z.eq_dec j i); try contradiction;
    cbn [List.length]; rewrite IH; reflexivity.
Qed.

(** C7, as amended: when [onDataProhibitedChanged] runs while data is
    prohibited, the transport receives one [cancel] call for each entry of
    the active list, in the list's order and whatever becomes of the calls,
    and the list is empty afterwards; an id therefore receives as many
    calls as it has entries in the list, exactly one when it is listed
    once. *)
Theorem data_prohibited_cancels_every_entry :
  forall w,
    fst (isDataProhibited w) = true ->
    let w' := after onDataProhibitedChanged w in
    tracedSince w w' = map (fun i => AsyncCall (cancelCall i)) (m_activeEvents (self w))
    /\ m_activeEvents (self w') = []
    /\ db w' = db w
    /\ (forall i, count (isCancelOf i) (tracedSince w w')
                  = count_occ Z.eq_dec (m_activeEvents (self w)) i)
    /\ (forall i, NoDup (m_activeEvents (self w)) -> In i (m_activeEvents (self w)) ->
                  count (isCancelOf i) (tracedSince w w') = 1%nat).
Proof.
  intros w Hp w'.
  assert (Hw' : w' = setActiveEvents []
                       (withTrace (trace w ++ map (fun i => AsyncCall (cancelCall i))
                                                  (m_activeEvents (self w))) w)).
  { subst w'; unfold after, onDataProhibitedChanged; unfold bind at 1, gets; calc.
    destruct (m_activeEvents (self w)) as [|i l] eqn:Hl.
    - cbn [map]; rewrite app_nil_r, withTrace_same.
      unfold ret, setActiveEvents; cbn [snd].
      destruct w as [[a f d] s fs t o]; cbn in Hl |- *; rewrite Hl; reflexivity.
    - unfold bind at 1.
      destruct (isDataProhibited w) as [b w0] eqn:Hd.
      assert (Hw0 := isDataProhibited_reads w); rewrite Hd in Hw0; cbn in Hw0, Hp.
      subst b w0; unfold bind at 1; rewrite foreach_cancel.
      unfold m_activeEvents_clear, modify; reflexivity. }
  assert (Ht : tracedSince w w'
               = map (fun i => AsyncCall (cancelCall i)) (m_activeEvents (self w)))
    by (apply tracedSince_app; rewrite Hw'; reflexivity).
  split; [exact Ht|].
  split; [rewrite Hw'; reflexivity|].
  split; [rewrite Hw'; reflexivity|].
  split.
  - intros i; rewrite Ht; apply count_cancel.
  - intros i Hnd Hin; rewrite Ht, count_cancel.
    apply NoDup_count_occ' ; assumption.
Qed.

(** *** Notifications *)

Lemma setGroupForEvent_run (event : Event.t) (w : World) :
  setGroupForEvent event w
  = (if refuse (outside w) (SetGroupForEvent event) then (false, event)
     else (true, Event.setGroupId
                   (groupFor (outside w) (Event.localUid event) (Event.remoteUid event))
                   event),
     withTrace (trace w ++ [SetGroupForEvent event]) w).
Proof.
  unfold setGroupForEvent; run.
  destruct (refuse (outside w) (SetGroupForEvent event)); reflexivity.
Qed.

Lemma addEvent_run (event : Event.t) (w : World) :
  addEvent event w
  = let w0 := withTrace (trace w ++ [AddEvent event]) w in
    if refuse (outside w) (AddEvent event) then ((false, event), w0)
    else
      let added := Event.setId (nextId (db w)) event in
      ((true, added),
       withDb (Build_Store (rows (db w) ++ [added]) (nextId (db w) + 1)) w0).
Proof.
  unfold addEvent; run.
  destruct (refuse (outside w) (AddEvent event)); reflexivity.
Qed.

Lemma no_row_added (l : list Event.t) (r : Event.t) : l <> l ++ [r].
Proof.
  intros E; apply (f_equal (@List.length _)) in E.
  rewrite length_app in E; cbn in E; lia.
Qed.

Lemma QString_number_not_empty (n : Z) : QString_number n <> EmptyString.
Proof.
  unfold QString_number, NilZero.string_of_int, NilZero.string_of_uint.
  destruct (Z.to_int n) as [u|u]; [|discriminate].
  destruct u; discriminate.
Qed.

(** What a successful [messageNotification] leaves behind, [manual] being
    the value its [manualDownload] takes. *)
Lemma messageNotification_success
    (imsi from subject : string) (expiry : Z) (data : string)
    (w w' : World) (token : string) (record : Event.t) :
  messageNotification imsi from subject expiry data w = (token, w') ->
  rows (db w') = rows (db w) ++ [record] ->
  let manual :=
    if fst (isDataProhibited w) then true
    else match m_automaticDownload (self w) with
         | Some item => negb (QVariant_toBool (gconf (outside w) (key item)))
         | None => false
         end in
  Event.status record
  = (if manual then Event.ManualNotificationStatus else Event.WaitingStatus)
  /\ token = (if manual then EmptyString else QString_number (Event.id record))
  /\ m_activeEvents (self w')
     = (if manual then m_activeEvents (self w)
        else m_activeEvents (self w) ++ [Event.id record]).
Proof.
  intros Hrun Hrows manual.
  unfold messageNotification in Hrun.
  unfold bind at 1, gets at 1 in Hrun.
  unfold bind at 1 in Hrun.
  destruct (isDataProhibited w) as [prohibited w0] eqn:Hd.
  assert (Hw0 := isDataProhibited_reads w); rewrite Hd in Hw0; cbn in Hw0; subst w0.
  cbn [fst] in manual.
  unfold bind at 1 in Hrun.
  assert (Hm : (if prohibited then ret true
                else automaticDownload <- gets (fun w => m_automaticDownload (self w)) ;;
                     match automaticDownload with
                     | Some item => v <- MGConfItem_value item ;;
                                    ret (negb (QVariant_toBool v))
                     | None => ret false
                     end) w = (manual, w)).
  { subst manual; destruct prohibited; [reflexivity|].
    unfold bind, gets, ret, MGConfItem_value.
    destruct (m_automaticDownload (self w)); reflexivity. }
  rewrite Hm in Hrun; clear Hm.
  unfold bind at 1 in Hrun; rewrite setGroupForEvent_run in Hrun.
  match type of Hrun with context [refuse ?o ?c] => destruct (refuse o c) end.
  { cbn in Hrun; injection Hrun as <- <-; cbn in Hrows.
    exfalso; exact (no_row_added _ _ Hrows). }
  cbn [negb] in Hrun.
  unfold bind at 1 in Hrun; rewrite addEvent_run in Hrun; cbv zeta in Hrun.
  match type of Hrun with context [refuse ?o ?c] => destruct (refuse o c) end.
  { cbn in Hrun; injection Hrun as <- <-; cbn in Hrows.
    exfalso; exact (no_row_added _ _ Hrows). }
  cbn [negb] in Hrun.
  destruct manual; run; injection Hrun as <- <-; cbn in Hrows |- *;
    apply app_inv_head in Hrows; injection Hrows as <-; auto.
Qed.

(** C5: after a successful [messageNotification], one that persisted a
    record: with automatic download configured off the token is empty and
    the record's status is [ManualNotification]; with automatic download
    configured on and data not prohibited the token is the record's row id,
    which is not empty, the status is [Waiting] and the row id has joined
    the active list. *)
Theorem notification_token_and_status :
  forall imsi from subject expiry data w w' token record item,
    messageNotification imsi from subject expiry data w = (token, w') ->
    rows (db w') = rows (db w) ++ [record] ->
    m_automaticDownload (self w) = Some item ->
    (QVariant_toBool (gconf (outside w) (key item)) = false ->
     token = EmptyString
     /\ Event.status record = Event.ManualNotificationStatus)
    /\ (QVariant_toBool (gconf (outside w) (key item)) = true ->
        fst (isDataProhibited w) = false ->
        token = QString_number (Event.id record)
        /\ token <> EmptyString
        /\ Event.status record = Event.WaitingStatus
        /\ m_activeEvents (self w') = m_activeEvents (self w) ++ [Event.id record]
        /\ In (Event.id record) (m_activeEvents (self w'))).
Proof.
  intros imsi from subject expiry data w w' token record item Hrun Hrows Hitem.
  destruct (messageNotification_success _ _ _ _ _ _ _ _ _ Hrun Hrows)
    as (Hs & Ht & Ha).
  rewrite Hitem in Hs, Ht, Ha.
  split.
  - intros Hoff; rewrite Hoff in Hs, Ht.
    destruct (fst (isDataProhibited w)); auto.
  - intros Hon Hfree; rewrite Hon, Hfree in Hs, Ht, Ha; cbn in Hs, Ht, Ha.
    repeat split; auto.
    + rewrite Ht; apply QString_number_not_empty.
    + rewrite Ha; apply in_or_app; right; left; reflexivity.
Qed.

(** C2, as amended: an empty subscriber identity unsets both cached
    configuration items, and while the automatic-download item is unset
    and data is not prohibited [messageNotification] downloads
    automatically: the record it persists has status [Waiting], the token
    is its row id, which is not empty, and the row id joins the active
    list. *)
Theorem unset_automatic_download_means_automatic :
  (forall w,
     QVariant_toString (contextProperty (outside w) m_subscriberIdentityProperty)
     = EmptyString ->
     let w' := after onSubscriberIdentityChanged w in
     m_automaticDownload (self w') = None /\ m_sendMessageFlags (self w') = None)
  /\ (forall imsi from subject expiry data w w' token record,
        messageNotification imsi from subject expiry data w = (token, w') ->
        rows (db w') = rows (db w) ++ [record] ->
        m_automaticDownload (self w) = None ->
        fst (isDataProhibited w) = false ->
        Event.status record = Event.WaitingStatus
        /\ token = QString_number (Event.id record)
        /\ token <> EmptyString
        /\ m_activeEvents (self w') = m_activeEvents (self w) ++ [Event.id record]).
Proof.
  split.
  - intros w Hempty w'; subst w'.
    unfold onSubscriberIdentityChanged, ContextProperty_value; run.
    rewrite Hempty; cbn; auto.
  - intros imsi from subject expiry data w w' token record Hrun Hrows Hnone Hfree.
    destruct (messageNotification_success _ _ _ _ _ _ _ _ _ Hrun Hrows)
      as (Hs & Ht & Ha).
    rewrite Hnone, Hfree in Hs, Ht, Ha.
    repeat split; auto.
    rewrite Ht; apply QString_number_not_empty.
Qed.

(** *** The copy protocol: one part, the batch, the clean-up *)


Lemma isEmpty_false (s : string) : isEmpty s = false -> s <> EmptyString.
Proof. destruct s; [discriminate | discriminate]. Qed.

















(** *** The copy protocol in [messageReceived] and [sendMessage] *)










(** *** What precedes the copy leaves the files alone *)
















(** *** Group messages *)

Lemma sendMessage_rejects_group (to0 : string) (to cc bcc : list string)
    (subject : string) (parts : MmsPartList) (w : World) :
  Z.of_nat (List.length (to0 :: to)) + Z.of_nat (List.length cc)
  + Z.of_nat (List.length bcc) > 1 ->
  sendMessage (to0 :: to) cc bcc subject parts w = Some (-1, w).
Proof.
  intros Hmany; unfold sendMessage, sendMessage_createEvent; cbn [nth_error].
  unfold bind, gets, ret.
  apply Z.gt_lt, Z.gtb_lt in Hmany; rewrite Hmany; reflexivity.
Qed.

(** C6, the defect in general: with more than one recipient in total the
    call returns -1 and leaves the world as it is exactly when [to] is not
    empty; with an empty [to] the read of [to[0]] is out of range and the
    call has no defined outcome. *)
Theorem group_rejection_needs_first_recipient :
  forall to cc bcc subject parts w,
    Z.of_nat (List.length to) + Z.of_nat (List.length cc) + Z.of_nat (List.length bcc) > 1 ->
    (to = [] -> sendMessage to cc bcc subject parts w = None)
    /\ (to <> [] -> sendMessage to cc bcc subject parts w = Some (-1, w)).
Proof.
  intros to cc bcc subject parts w Hmany; split.
  - intros ->; reflexivity.
  - intros Hto; destruct to as [|to0 to]; [contradiction|].
    apply sendMessage_rejects_group; exact Hmany.
Qed.

(** *** The active list after a failed dispatch *)

(** C1, the defect in general: when the transport's call for a record
    listed in the active list comes back with an error,
    [sendMessageFinished] stores the status [TemporarilyFailed] for it and
    leaves the active list as it is, so the list names a record whose
    status is not in progress. *)
Theorem failed_dispatch_stays_active :
  forall w call i e,
    QDBusPendingCallWatcher.mms_event_id call = QInt i ->
    (exists error, QDBusPendingCallWatcher.reply call = ReplyError error) ->
    recordOf w i e ->
    refuse (outside w) (ModifyEvent (Event.setStatus Event.TemporarilyFailedStatus e))
    = false ->
    In i (m_activeEvents (self w)) ->
    let w' := after (sendMessageFinished call) w in
    m_activeEvents (self w') = m_activeEvents (self w)
    /\ rowById i (db w') = Some (Event.setStatus Event.TemporarilyFailedStatus e)
    /\ activeSetInvariant w' = false.
Proof.
  intros w call i e Hid (error & Hreply) (Hfetch & Hrow & Hvalid) Hok Hin w'.
  set (failed := Event.setStatus Event.TemporarilyFailedStatus e) in *.
  assert (Hw' : w' = withDb (replaceRow failed (db w))
                       (withTrace (trace w ++ [GetEventById i;
                                                ShowNotification failed (Event.remoteUid e)
                                                  Group.ChatTypeP2P;
                                                ModifyEvent failed]) w)).
  { subst w'; unfold after, sendMessageFinished.
    rewrite Hid, Hreply; cbn [QVariant_toInt].
    unfold bind at 1 2; rewrite getEventById_run, Hfetch, Hrow; calc.
    unfold ret at 1; fold failed.
    unfold bind at 1 2 3, showNotification, emit, modify, ret; calc.
    rewrite modifyEvent_run; cbv zeta; calc.
    change (Event.id failed) with (Event.id e).
    rewrite (rowById_id _ _ _ Hrow), Hok, (rowById_hasRow _ _ _ Hrow).
    change (Event.isValid failed) with (Event.isValid e); rewrite Hvalid; calc.
    rewrite <- !app_assoc; reflexivity. }
  assert (Hstored : rowById i (db w') = Some failed).
  { rewrite Hw'; calc. eapply rowById_replaceRow; [exact Hrow|].
    apply (rowById_id _ _ _ Hrow). }
  split; [rewrite Hw'; reflexivity|].
  split; [exact Hstored|].
  unfold activeSetInvariant.
  destruct (forallb _ (m_activeEvents (self w'))) eqn:Hall; [|reflexivity].
  rewrite forallb_forall in Hall.
  assert (Hin' : In i (m_activeEvents (self w'))) by (rewrite Hw'; exact Hin).
  specialize (Hall i Hin'); rewrite Hstored in Hall; discriminate.
Qed.

End Properties.

(** ** The claims at concrete inputs *)

Section Examples.
#[local] Existing Instance examplePlatform.

(** C8 at work: record 1, held when roaming, meets [NoSpace]. *)
Lemma manual_notification_survives_witness :
  let w' := after (messageReceiveStateChanged "1" NoSpace) heldWorld in
  Event.status heldRecord = Event.ManualNotificationStatus
  /\ rowById 1 (db w') = Some heldRecord
  /\ count isPersist (tracedSince heldWorld w') = 0%nat
  /\ count isNotification (tracedSince heldWorld w') = 0%nat
  /\ m_activeEvents (self w') = m_activeEvents (self heldWorld).
Proof.
  split; [vm_compute; reflexivity|].
  assert (Hrec : recordOf heldWorld (toInt "1") heldRecord) by (vm_compute; repeat split).
  exact (proj2 (manual_notification_survives_receive_failure
                  "1" NoSpace heldWorld heldRecord Hrec eq_refl (or_introl eq_refl))).
Defined.

(** C3 as amended at work: record 1 waits and meets [Receiving] twice. *)
Lemma receive_state_follows_table_witness :
  let w1 := after (messageReceiveStateChanged "1" Receiving) waitingWorld in
  let w2 := after (messageReceiveStateChanged "1" Receiving) w1 in
  count isPersist (tracedSince waitingWorld w1) = 1%nat
  /\ rowById 1 (db w1) = Some (Event.setStatus Event.DownloadingStatus waitingRecord)
  /\ count isPersist (tracedSince w1 w2) = 0%nat.
Proof.
  destruct (receive_state_follows_table "1" Receiving waitingWorld waitingRecord)
    as (Hfirst & Hsecond); [vm_compute; repeat split|].
  split; [exact Hfirst | apply Hsecond; vm_compute; reflexivity].
Defined.

(** C3, the claim as stated fails twice.  Record 1 waits: [Deferred] maps
    to [Waiting], the record's current status, and the first call already
    persists nothing, not once.  Record 1 is held in [ManualNotification]:
    [NoSpace] leaves it there, the status does not become
    [TemporarilyFailed]. *)
Lemma receive_state_table_exceptions :
  (recordOf waitingWorld (toInt "1") waitingRecord
   /\ receiveTable Deferred (Event.status waitingRecord) = Event.status waitingRecord
   /\ count isPersist
        (tracedSince waitingWorld
           (after (messageReceiveStateChanged "1" Deferred) waitingWorld))
      = 0%nat)
  /\ (recordOf heldWorld (toInt "1") heldRecord
      /\ option_map Event.status
           (rowById 1 (db (after (messageReceiveStateChanged "1" NoSpace) heldWorld)))
         = Some Event.ManualNotificationStatus).
Proof. vm_compute; repeat split. Qed.

(** C2, the claim as stated fails: without a subscriber identity the
    automatic-download item is unset, data is not prohibited, and the
    notification is answered with the row id "1" for a record in [Waiting]
    status that joins the active list, not with an empty token for a
    record in [ManualNotification] status. *)
Lemma unset_automatic_download_downloads :
  m_automaticDownload (self noIdentityWorld) = None
  /\ fst (isDataProhibited noIdentityWorld) = false
  /\ fst (notify noIdentityWorld) = "1"%string
  /\ map Event.status (rows (db (after notify noIdentityWorld))) = [Event.WaitingStatus]
  /\ m_activeEvents (self (after notify noIdentityWorld)) = [1].
Proof. vm_compute; repeat split. Qed.

(** C2 as amended at work, without a subscriber identity. *)
Lemma unset_automatic_download_witness :
  m_automaticDownload (self (after onSubscriberIdentityChanged
                                   (emptyWorld noIdentityOutside))) = None
  /\ Event.status (firstRow (rowById 1 (db (after notify noIdentityWorld))))
     = Event.WaitingStatus
  /\ fst (notify noIdentityWorld) <> EmptyString.
Proof.
  destruct unset_automatic_download_means_automatic as (Hunset & Hauto).
  split; [apply (Hunset (emptyWorld noIdentityOutside)); vm_compute; reflexivity|].
  destruct (Hauto "244050000000001"%string "+358401234567"%string "hi"%string
                  3600 EmptyString
                  noIdentityWorld (after notify noIdentityWorld) "1"%string
                  (firstRow (rowById 1 (db (after notify noIdentityWorld)))))
    as (Hstatus & _ & Htoken & _); try (vm_compute; reflexivity).
  split; [exact Hstatus | exact Htoken].
Defined.

(** C5 at work: automatic download configured off, then on. *)
Lemma notification_token_and_status_witness :
  (fst (notify manualWorld) = EmptyString
   /\ Event.status (firstRow (rowById 1 (db (after notify manualWorld))))
      = Event.ManualNotificationStatus)
  /\ (fst (notify homeWorld) = "1"%string
      /\ Event.status waitingRecord = Event.WaitingStatus
      /\ In 1 (m_activeEvents (self waitingWorld))).
Proof.
  split.
  - destruct (notification_token_and_status
                "244050000000001" "+358401234567" "hi" 3600 EmptyString
                manualWorld (after notify manualWorld) (fst (notify manualWorld))
                (firstRow (rowById 1 (db (after notify manualWorld))))
                (newMGConfItem "/imsi/244050000000001/mms/automatic-download"))
      as (Hoff & _); try (vm_compute; reflexivity).
    apply Hoff; vm_compute; reflexivity.
  - destruct (notification_token_and_status
                "244050000000001" "+358401234567" "hi" 3600 EmptyString
                homeWorld waitingWorld (fst (notify homeWorld)) waitingRecord
                (newMGConfItem "/imsi/244050000000001/mms/automatic-download"))
      as (_ & Hon); try (vm_compute; reflexivity).
    destruct Hon as (Ht & _ & Hs & _ & Hin); try (vm_compute; reflexivity).
    split; [exact Ht|]. split; [exact Hs | exact Hin].
Defined.

(** C7 as amended at work: record 1 is being sent when roaming starts. *)
Lemma data_prohibited_cancels_witness :
  let w := withOutside roamingOutside sendingWorld in
  let w' := after onDataProhibitedChanged w in
  tracedSince w w' = [AsyncCall (cancelCall 1)]
  /\ m_activeEvents (self w') = []
  /\ count (isCancelOf 1) (tracedSince w w') = 1%nat.
Proof.
  destruct (data_prohibited_cancels_every_entry (withOutside roamingOutside sendingWorld))
    as (Htrace & Hempty & _ & _ & Hone); [vm_compute; reflexivity|].
  split; [exact Htrace|]. split; [exact Hempty|].
  apply Hone; vm_compute; [repeat constructor; intros [] | left; reflexivity].
Defined.

(** C7, the claim as stated fails: record 1 is dispatched by [sendMessage]
    and dispatched again by [sendMessageFromEvent] while it is still being
    sent, which lists its id twice; when roaming then prohibits data, the
    id receives two [cancel] calls, not exactly one. *)
Lemma twice_listed_id_cancelled_twice :
  let w := withOutside roamingOutside (after (sendMessageFromEvent_int 1) sendingWorld) in
  let w' := after onDataProhibitedChanged w in
  m_activeEvents (self w) = [1; 1]
  /\ fst (isDataProhibited sendingWorld) = false
  /\ fst (isDataProhibited w) = true
  /\ count (isCancelOf 1) (tracedSince w w') = 2%nat
  /\ m_activeEvents (self w') = [].
Proof. vm_compute; repeat split. Qed.

(** C1 at the failing input: [sendMessage] dispatches record 1 and lists
    its id, the invariant holds; the transport's call fails and
    [sendMessageFinished] stores [TemporarilyFailed] for record 1, whose id
    stays in the active list: the invariant is broken.  The same failure
    reported through [messageSendStateChanged] stores the same status and
    prunes the list. *)
Lemma failed_dispatch_witness :
  let w := after (sendMessageFinished failedCall) sendingWorld in
  let w' := after (messageSendStateChanged "1" MessageSendState.SendError) sendingWorld in
  (m_activeEvents (self sendingWorld) = [1]
   /\ activeSetInvariant sendingWorld = true)
  /\ (m_activeEvents (self w) = [1]
      /\ rowById 1 (db w)
         = Some (Event.setStatus Event.TemporarilyFailedStatus sendingRecord)
      /\ activeSetInvariant w = false)
  /\ (option_map Event.status (rowById 1 (db w')) = Some Event.TemporarilyFailedStatus
      /\ m_activeEvents (self w') = []
      /\ activeSetInvariant w' = true).
Proof.
  split; [vm_compute; split; reflexivity|].
  split; [|vm_compute; repeat split].
  assert (Hrec : recordOf sendingWorld 1 sendingRecord) by (vm_compute; repeat split).
  assert (Hin : In 1 (m_activeEvents (self sendingWorld))) by (vm_compute; left; reflexivity).
  exact (failed_dispatch_stays_active sendingWorld failedCall 1 sendingRecord eq_refl
           (ex_intro _ _ eq_refl) Hrec eq_refl Hin).
Defined.

(** C6 at the failing input: two recipients in [cc] and none in [to]: the
    call has no defined outcome, it does not return -1; with the same two
    recipients, one of them in [to], the call returns -1 and leaves the
    world as it is. *)
Lemma group_rejection_witness :
  sendMessage [] ["+358401234567"%string; "+358407654321"%string] [] "hi" [textPart]
              homeWorld = None
  /\ sendMessage ["+358401234567"%string] ["+358407654321"%string] [] "hi" [textPart]
                 homeWorld = Some (-1, homeWorld).
Proof.
  split.
  - apply (group_rejection_needs_first_recipient
             [] ["+358401234567"%string; "+358407654321"%string] [] "hi" [textPart]
             homeWorld); [cbn; lia | reflexivity].
  - apply (group_rejection_needs_first_recipient
             ["+358401234567"%string] ["+358407654321"%string] [] "hi" [textPart]
             homeWorld); [cbn; lia | discriminate].
Defined.


End Examples.
